(** * The sample module: [Application], [ApiService], [format_message]

    A shallow embedding of [test-fixtures/sample.py] and the properties of its
    classes, its free function and its module-level constants.

    Conventions of the embedding:
    - a Python [str] is a [string], an [int] is a [Z], a [bool] is a [bool];
    - a [dict] is a finite map ([gmap]) from keys to Python values;
    - a function annotated [-> None] returns [tt], the only value of [unit];
    - an instance is a record of its attributes; a method is a computation in
      the monad [Py], whose state holds the instance bound to [self] and the
      text written to standard output so far;
    - a parameter with a default is passed as an [arg]: [Omitted] selects the
      default written in the [def] line. *)

From Stdlib Require Import ZArith Ascii String.
From stdpp Require Import base strings gmap.

Local Open Scope Z_scope.
Local Open Scope string_scope.

(** ** Python values *)

(** The values a [dict] or the module namespace can hold. *)
#[local] Set Warnings "-register-all".
Inductive value : Type :=
| VNone
| VBool (b : bool)
| VInt (z : Z)
| VStr (s : string)
| VDict (d : gmap string value).

(** [dict], as in the annotations [-> dict] and [data: dict]. *)
#[local] Set Warnings "register-all".
Abbreviation dict := (gmap string value).

(** An actual argument for a parameter that has a default value. *)
Inductive arg (A : Type) : Type :=
| Omitted
| Supplied (a : A).
Arguments Omitted {A}.
Arguments Supplied {A} a.

(** Parameter binding: the default is used exactly when the caller passes
    nothing. *)
Definition bind_default {A : Type} (default : A) (x : arg A) : A :=
  match x with
  | Omitted => default
  | Supplied a => a
  end.

(** Truth value testing, as done by [if x:]. *)
Class Truth (A : Type) := truth : A -> bool.

(** A [str] is true when it is not empty. *)
#[global] Instance truth_str : Truth string :=
  fun s => match s with
           | EmptyString => false
           | String _ _ => true
           end.

(** [None] is false; any other object follows its own rule. *)
#[global] Instance truth_optional {A : Type} `{Truth A} : Truth (option A) :=
  fun o => match o with
           | None => false
           | Some a => truth a
           end.

(** A replacement field [{x}] of an f-string: [format(x, '')]. *)
Class Format (A : Type) := format : A -> string.

#[global] Instance format_str : Format string := fun s => s.

#[global] Instance format_optional {A : Type} `{Format A} : Format (option A) :=
  fun o => match o with
           | None => "None"
           | Some a => format a
           end.

(** ** Computations *)

Inductive exception : Type :=
| Exception (type_name : string).

(** How a call ends: with a value, or with an exception propagating. *)
Inductive outcome (A : Type) : Type :=
| Returned (a : A)
| Raised (e : exception).
Arguments Returned {A} a.
Arguments Raised {A} e.

(** What a computation can read and write: the object bound to [self] and the
    text on standard output. *)
Record state (O : Type) : Type := State {
  self : O;
  stdout : string
}.
Arguments State {O} self stdout.
Arguments self {O} s.
Arguments stdout {O} s.

Definition Py (O A : Type) : Type := state O -> outcome A * state O.

Definition ret {O A : Type} (a : A) : Py O A :=
  fun st => (Returned a, st).

Definition bind {O A B : Type} (c : Py O A) (k : A -> Py O B) : Py O B :=
  fun st =>
    match c st with
    | (Returned a, st') => k a st'
    | (Raised e, st') => (Raised e, st')
    end.

Notation "x <- c ;; k" := (bind c (fun x => k))
  (at level 100, c at next level, right associativity).
Notation "c ;; k" := (bind c (fun _ => k))
  (at level 100, right associativity).

(** Reading an attribute of [self]. *)
Definition getattr {O A : Type} (field : O -> A) : Py O A :=
  fun st => (Returned (field (self st)), st).

(** Assigning to an attribute of [self]; [update] is the record update. *)
Definition setattr {O : Type} (update : O -> O) : Py O unit :=
  fun st => (Returned tt, State (update (self st)) (stdout st)).

Definition newline : string := String "010"%char EmptyString.

(** [print(s)]: the text and a line end are appended to standard output. *)
Definition print {O : Type} (s : string) : Py O unit :=
  fun st => (Returned tt, State (self st) (stdout st +:+ s +:+ newline)).

(** An [async def] call builds a coroutine and runs nothing of the body. *)
Inductive coroutine (O A : Type) : Type :=
| Coroutine (body : Py O A).
Arguments Coroutine {O A} body.

(** Driving a coroutine to completion, as [await c] or [asyncio.run(c)] does.
    The bodies modelled here contain no [await], so they never suspend. *)
Definition await {O A : Type} (c : coroutine O A) : Py O A :=
  match c with
  | Coroutine body => body
  end.

(** ** [format_message] *)

(** [[
def format_message(message: str, prefix: str = None) -> str:
    if prefix:
        return f"{prefix}: {message}"
    return message
]] *)
Definition format_message {O : Type} (message : string)
    (prefix : arg (option string)) : Py O string :=
  let prefix := bind_default None prefix in
  if truth prefix
  then ret (format prefix +:+ ": " +:+ format message)
  else ret message.

(** ** [class Application] *)

Module Application.

(** The attributes [__init__] creates. *)
Record t : Type := Object {
  name : string;
  version : string;
  _running : bool
}.

Definition with_name (name' : string) (o : t) : t :=
  {| name := name'; version := version o; _running := _running o |}.

Definition with_running (b : bool) (o : t) : t :=
  {| name := name o; version := version o; _running := b |}.

(** [Application(name, version)]: the new instance once [__init__] has run.
[[
    def __init__(self, name: str, version: str):
        self.name = name
        self.version = version
        self._running = False
]] *)
Definition __init__ (name version : string) : t :=
  {| name := name; version := version; _running := false |}.

(** [[
    def get_name(self) -> str:
        return self.name
]] *)
Definition get_name : Py t string :=
  getattr name.

(** [[
    def set_name(self, name: str) -> None:
        self.name = name
]] *)
Definition set_name (name : string) : Py t unit :=
  setattr (with_name name).

(** [[
    def start(self) -> None:
        self._running = True
        print(f"Starting {self.name} v{self.version}")
]] *)
Definition start : Py t unit :=
  setattr (with_running true) ;;
  n <- getattr name ;;
  v <- getattr version ;;
  print ("Starting " +:+ format n +:+ " v" +:+ format v).

(** [[
    def stop(self) -> None:
        self._running = False
        print(f"Stopping {self.name}")
]] *)
Definition stop : Py t unit :=
  setattr (with_running false) ;;
  n <- getattr name ;;
  print ("Stopping " +:+ format n).

(** One call of a method from outside. *)
Inductive call : Type :=
| GetName
| SetName (name : string)
| Start
| Stop.

Definition perform (c : call) : Py t unit :=
  match c with
  | GetName => get_name ;; ret tt
  | SetName s => set_name s
  | Start => start
  | Stop => stop
  end.

(** A client's calls, one after the other. *)
Fixpoint perform_all (cs : list call) : Py t unit :=
  match cs with
  | [] => ret tt
  | c :: cs' => perform c ;; perform_all cs'
  end.

(** Whether the most recent [start] or [stop] among [cs] is a [start]; with
    neither in [cs], the answer so far, [b], stands. *)
Fixpoint last_lifecycle_call_is_start (b : bool) (cs : list call) : bool :=
  match cs with
  | [] => b
  | Start :: cs' => last_lifecycle_call_is_start true cs'
  | Stop :: cs' => last_lifecycle_call_is_start false cs'
  | _ :: cs' => last_lifecycle_call_is_start b cs'
  end.

(** The argument of the most recent [set_name] among [cs]; with none in [cs],
    the name so far, [n], stands. *)
Fixpoint last_name_set (n : string) (cs : list call) : string :=
  match cs with
  | [] => n
  | SetName s :: cs' => last_name_set s cs'
  | _ :: cs' => last_name_set n cs'
  end.

(** The lines a client expects on standard output from the calls [cs] on an
    instance named [n] at version [v]: one per [start] and one per [stop], in
    call order, each with the name in force at that call. *)
Fixpoint transcript (n v : string) (cs : list call) : string :=
  match cs with
  | [] => EmptyString
  | GetName :: cs' => transcript n v cs'
  | SetName s :: cs' => transcript s v cs'
  | Start :: cs' =>
      ("Starting " +:+ n +:+ " v" +:+ v) +:+ newline +:+ transcript n v cs'
  | Stop :: cs' =>
      ("Stopping " +:+ n) +:+ newline +:+ transcript n v cs'
  end.

End Application.

(** ** [class ApiService] *)

Module ApiService.

Record t : Type := Object {
  api_key : string;
  timeout : Z;
  retries : Z
}.

(** [ApiService(api_key)] and [ApiService(api_key, timeout)].
[[
    def __init__(self, api_key: str, timeout: int = 5000):
        self.api_key = api_key
        self.timeout = timeout
        self.retries = 3
]] *)
Definition __init__ (api_key : string) (timeout : arg Z) : t :=
  let timeout := bind_default 5000 timeout in
  {| api_key := api_key; timeout := timeout; retries := 3 |}.

(** [[
    async def fetch_data(self, endpoint: str) -> dict:
        return {}
]] *)
Definition fetch_data (endpoint : string) : coroutine t dict :=
  Coroutine (ret ∅).

(** [[
    async def post_data(self, endpoint: str, data: dict) -> None:
        pass
]] *)
Definition post_data (endpoint : string) (data : dict) : coroutine t unit :=
  Coroutine (ret tt).

(** One awaited request from outside. *)
Inductive request : Type :=
| FetchData (endpoint : string)
| PostData (endpoint : string) (data : dict).

Definition perform (r : request) : Py t unit :=
  match r with
  | FetchData endpoint => await (fetch_data endpoint) ;; ret tt
  | PostData endpoint data => await (post_data endpoint data)
  end.

(** A client's requests, each awaited before the next. *)
Fixpoint perform_all (rs : list request) : Py t unit :=
  match rs with
  | [] => ret tt
  | r :: rs' => perform r ;; perform_all rs'
  end.

End ApiService.

(** ** Module-level constants *)

Definition DEFAULT_TIMEOUT : Z := 5000.
Definition MAX_RETRIES : Z := 3.
Definition API_VERSION : string := "v1".

(** The three assignments at the end of the module, run in order on the
    module's namespace [globals]. *)
Definition module_constants (globals : gmap string value) : gmap string value :=
  let globals := <["DEFAULT_TIMEOUT" := VInt DEFAULT_TIMEOUT]> globals in
  let globals := <["MAX_RETRIES" := VInt MAX_RETRIES]> globals in
  let globals := <["API_VERSION" := VStr API_VERSION]> globals in
  globals.

(** * Properties *)

(** ** How each method runs *)

Section Runs.

Variable st : state Application.t.

Lemma get_name_run :
  Application.get_name st = (Returned (Application.name (self st)), st).
Proof. reflexivity. Qed.

Lemma set_name_run (s : string) :
  Application.set_name s st =
  (Returned tt, State (Application.with_name s (self st)) (stdout st)).
Proof. reflexivity. Qed.

Lemma start_run :
  Application.start st =
  (Returned tt,
   State (Application.with_running true (self st))
         (stdout st +:+
          ("Starting " +:+ Application.name (self st) +:+ " v" +:+
           Application.version (self st)) +:+ newline)).
Proof. reflexivity. Qed.

Lemma stop_run :
  Application.stop st =
  (Returned tt,
   State (Application.with_running false (self st))
         (stdout st +:+
          ("Stopping " +:+ Application.name (self st)) +:+ newline)).
Proof. reflexivity. Qed.

End Runs.

Lemma bind_run {O A B : Type} (c : Py O A) (k : A -> Py O B)
    (st st' : state O) (a : A) :
  c st = (Returned a, st') -> (x <- c ;; k x) st = k a st'.
Proof. intros Hc. unfold bind. rewrite Hc. reflexivity. Qed.

(** Every single call returns, and sets the flag as
    [last_lifecycle_call_is_start] says for a history of one call. *)
Lemma perform_run (c : Application.call) (st : state Application.t) :
  exists st' : state Application.t,
    Application.perform c st = (Returned tt, st') /\
    Application._running (self st') =
    Application.last_lifecycle_call_is_start
      (Application._running (self st)) [c].
Proof.
  destruct c as [ | s | | ]; eexists; split; reflexivity.
Qed.

Lemma perform_all_run (cs : list Application.call) :
  forall st : state Application.t,
    fst (Application.perform_all cs st) = Returned tt /\
    Application._running (self (snd (Application.perform_all cs st))) =
    Application.last_lifecycle_call_is_start
      (Application._running (self st)) cs.
Proof.
  induction cs as [ | c cs IH]; intros st.
  - split; reflexivity.
  - destruct (perform_run c st) as (st' & Hrun & Hflag).
    cbn [Application.perform_all]. rewrite (bind_run _ _ _ _ _ Hrun).
    destruct (IH st') as [Hret Hlast]. split; [exact Hret | ].
    rewrite Hlast, Hflag. destruct c; reflexivity.
Qed.

(** ** [format_message] *)

(** C1, as amended. [format_message("hi")] returns ["hi"] and
    [format_message("hi", "LOG")] returns ["LOG: hi"]; for every message and
    every supplied prefix that is not the empty string, the result is the
    prefix, a colon and a space, then the message; with the prefix absent
    (omitted, or [None]) the result is the bare message. No call raises or
    touches the state. *)
Theorem format_message_prefix_colon_message {O : Type} (st : state O)
    (message prefix : string) :
  prefix <> EmptyString ->
  format_message "hi" Omitted st = (Returned "hi", st) /\
  format_message "hi" (Supplied (Some "LOG")) st = (Returned "LOG: hi", st) /\
  format_message message (Supplied (Some prefix)) st =
    (Returned (prefix +:+ ": " +:+ message), st) /\
  format_message message Omitted st = (Returned message, st) /\
  format_message message (Supplied None) st = (Returned message, st).
Proof.
  intros Hne. repeat split; try reflexivity.
  destruct prefix as [ | a prefix]; [congruence | reflexivity].
Qed.

Lemma format_message_prefix_colon_message_witness :
  "WARN" <> EmptyString /\
  format_message "hi" Omitted (State tt "out") =
    (Returned "hi", State tt "out") /\
  format_message "hi" (Supplied (Some "LOG")) (State tt "out") =
    (Returned "LOG: hi", State tt "out") /\
  format_message "disk full" (Supplied (Some "WARN")) (State tt "out") =
    (Returned "WARN: disk full", State tt "out") /\
  format_message "disk full" Omitted (State tt "out") =
    (Returned "disk full", State tt "out") /\
  format_message "disk full" (Supplied None) (State tt "out") =
    (Returned "disk full", State tt "out").
Proof.
  split; [discriminate | ].
  apply (format_message_prefix_colon_message
           (State tt "out") "disk full" "WARN").
  discriminate.
Defined.

(** C1, as first stated, fails for the empty prefix: it is a supplied prefix,
    yet [format_message("hi", '')] is ["hi"] and not [": hi"]. *)
Lemma format_message_empty_prefix_no_colon :
  fst (format_message "hi" (Supplied (Some EmptyString)) (State tt EmptyString))
    = Returned "hi" /\
  fst (format_message "hi" (Supplied (Some EmptyString)) (State tt EmptyString))
    <> Returned (EmptyString +:+ ": " +:+ "hi").
Proof. split; [reflexivity | discriminate]. Qed.

(** C8. [format_message] is deterministic and pure: two calls with equal
    arguments end the same way whatever the states they run in, and each
    leaves its state as it found it. *)
Theorem format_message_pure {O : Type} (message1 message2 : string)
    (prefix1 prefix2 : arg (option string)) (st1 st2 : state O) :
  message1 = message2 ->
  prefix1 = prefix2 ->
  fst (format_message message1 prefix1 st1) =
    fst (format_message message2 prefix2 st2) /\
  snd (format_message message1 prefix1 st1) = st1 /\
  snd (format_message message2 prefix2 st2) = st2.
Proof.
  intros -> ->. unfold format_message.
  destruct (truth (bind_default None prefix2)); repeat split; reflexivity.
Qed.

Lemma format_message_pure_witness :
  fst (format_message "hi" (Supplied (Some "LOG"))
         (State (Application.__init__ "app" "1.0") "Starting app v1.0")) =
    fst (format_message "hi" (Supplied (Some "LOG"))
         (State (Application.__init__ "other" "2.0") EmptyString)) /\
  snd (format_message "hi" (Supplied (Some "LOG"))
         (State (Application.__init__ "app" "1.0") "Starting app v1.0")) =
    State (Application.__init__ "app" "1.0") "Starting app v1.0" /\
  snd (format_message "hi" (Supplied (Some "LOG"))
         (State (Application.__init__ "other" "2.0") EmptyString)) =
    State (Application.__init__ "other" "2.0") EmptyString.
Proof.
  apply (format_message_pure "hi" "hi"
           (Supplied (Some "LOG")) (Supplied (Some "LOG"))); reflexivity.
Defined.

(** C9. With the empty string as prefix, [format_message] returns the bare
    message, with no colon, exactly as it does with the prefix omitted or
    [None]. *)
Theorem format_message_empty_prefix {O : Type} (message : string)
    (st : state O) :
  format_message message (Supplied (Some EmptyString)) st =
    (Returned message, st) /\
  format_message message (Supplied (Some EmptyString)) st =
    format_message message Omitted st /\
  format_message message (Supplied (Some EmptyString)) st =
    format_message message (Supplied None) st.
Proof. repeat split; reflexivity. Qed.

(** ** [Application] *)

(** C2. After construction the flag is false; after any [start] it is true;
    after any [stop] it is false; and after any sequence of calls on a new
    instance, all of which return, the flag tells whether the last [start] or
    [stop] among them was a [start]. *)
Theorem running_flag_reflects_last_lifecycle_call (name version out : string)
    (st : state Application.t) (cs : list Application.call) :
  Application._running (Application.__init__ name version) = false /\
  Application._running (self (snd (Application.start st))) = true /\
  Application._running (self (snd (Application.stop st))) = false /\
  fst (Application.perform_all cs
         (State (Application.__init__ name version) out)) = Returned tt /\
  Application._running
    (self (snd (Application.perform_all cs
                  (State (Application.__init__ name version) out)))) =
    Application.last_lifecycle_call_is_start false cs.
Proof.
  repeat split; try reflexivity;
    apply (perform_all_run cs (State (Application.__init__ name version) out)).
Qed.

(** C6. [get_name] after [set_name(s)] returns [s], and [get_name] on a new
    [Application(name, version)] returns [name]. *)
Theorem get_name_after_set_name (st : state Application.t)
    (s name version out : string) :
  fst ((Application.set_name s ;; Application.get_name) st) = Returned s /\
  fst (Application.get_name (State (Application.__init__ name version) out)) =
    Returned name.
Proof. split; reflexivity. Qed.

(** C7. [start] and [stop] leave [name] and [version] as they were; [set_name]
    leaves [version], [_running] and the output as they were; [get_name]
    changes nothing at all. *)
Theorem application_frame (st : state Application.t) (s : string) :
  (Application.name (self (snd (Application.start st))) =
     Application.name (self st) /\
   Application.version (self (snd (Application.start st))) =
     Application.version (self st)) /\
  (Application.name (self (snd (Application.stop st))) =
     Application.name (self st) /\
   Application.version (self (snd (Application.stop st))) =
     Application.version (self st)) /\
  (Application.version (self (snd (Application.set_name s st))) =
     Application.version (self st) /\
   Application._running (self (snd (Application.set_name s st))) =
     Application._running (self st) /\
   stdout (snd (Application.set_name s st)) = stdout st) /\
  snd (Application.get_name st) = st.
Proof.
  rewrite start_run, stop_run, set_name_run, get_name_run.
  repeat split; reflexivity.
Qed.

(** C10. Two [start] calls in a row leave the instance ([name], [version] and
    [_running]) as one [start] does, and likewise two [stop] calls. *)
Theorem start_stop_idempotent (st : state Application.t) :
  self (snd ((Application.start ;; Application.start) st)) =
    self (snd (Application.start st)) /\
  self (snd ((Application.stop ;; Application.stop) st)) =
    self (snd (Application.stop st)).
Proof.
  rewrite (bind_run _ _ _ _ _ (start_run st)).
  rewrite (bind_run _ _ _ _ _ (stop_run st)).
  rewrite !start_run, !stop_run. split; reflexivity.
Qed.

(** ** [ApiService] *)

(** C3. [timeout] is 5000 when the argument is omitted and the supplied value
    otherwise; [retries] is 3 whatever the arguments. *)
Theorem api_service_init (api_key : string) (t : Z) (timeout : arg Z) :
  ApiService.timeout (ApiService.__init__ api_key Omitted) = 5000 /\
  ApiService.timeout (ApiService.__init__ api_key (Supplied t)) = t /\
  ApiService.retries (ApiService.__init__ api_key timeout) = 3.
Proof. repeat split; reflexivity. Qed.

(** C4. Awaited, [fetch_data] returns the empty mapping and [post_data]
    returns [None]; neither raises; the instance, with its [api_key],
    [timeout] and [retries], and the output are as before. *)
Theorem api_service_stubs (service : ApiService.t) (out endpoint : string)
    (data : dict) :
  await (ApiService.fetch_data endpoint) (State service out) =
    (Returned ∅, State service out) /\
  await (ApiService.post_data endpoint data) (State service out) =
    (Returned tt, State service out).
Proof. split; reflexivity. Qed.

(** ** Module-level constants *)

(** C5. [DEFAULT_TIMEOUT] is 5000, [MAX_RETRIES] is 3 and [API_VERSION] is
    ["v1"], and these are the values the names are bound to once the module's
    assignments have run. *)
Theorem module_constants_values (globals : gmap string value) :
  DEFAULT_TIMEOUT = 5000 /\
  MAX_RETRIES = 3 /\
  API_VERSION = "v1" /\
  module_constants globals !! "DEFAULT_TIMEOUT" = Some (VInt 5000) /\
  module_constants globals !! "MAX_RETRIES" = Some (VInt 3) /\
  module_constants globals !! "API_VERSION" = Some (VStr "v1").
Proof.
  unfold module_constants. repeat split; try reflexivity.
  - rewrite !lookup_insert_ne by discriminate. apply lookup_insert_eq.
  - rewrite lookup_insert_ne by discriminate. apply lookup_insert_eq.
  - apply lookup_insert_eq.
Qed.

(** * Further properties *)

(** ** Strings *)

Lemma string_app_assoc (s1 s2 s3 : string) :
  (s1 +:+ s2) +:+ s3 = s1 +:+ s2 +:+ s3.
Proof.
  induction s1 as [ | a s1 IH]; [reflexivity | ].
  change (String a ((s1 +:+ s2) +:+ s3) = String a (s1 +:+ s2 +:+ s3)).
  rewrite IH. reflexivity.
Qed.

Lemma string_app_length (s1 s2 : string) :
  String.length (s1 +:+ s2) = (String.length s1 + String.length s2)%nat.
Proof.
  induction s1 as [ | a s1 IH]; [reflexivity | ].
  change (S (String.length (s1 +:+ s2)) =
          S (String.length s1 + String.length s2)).
  rewrite IH. reflexivity.
Qed.

Lemma string_app_nil_r (s : string) : s +:+ EmptyString = s.
Proof.
  induction s as [ | a s IH]; [reflexivity | ].
  change (String a (s +:+ EmptyString) = String a s).
  rewrite IH. reflexivity.
Qed.

(** A text put in front of [s] and followed by a colon and a space never
    gives [s] back. *)
Lemma prefixed_neq (p s : string) : p +:+ ": " +:+ s <> s.
Proof.
  intros Heq. apply (f_equal String.length) in Heq.
  rewrite !string_app_length in Heq. simpl in Heq. lia.
Qed.

(** ** [format_message], continued *)

(** X1. The result is the bare message exactly when the prefix is omitted,
    [None] or the empty string. *)
Theorem format_message_bare_iff {O : Type} (message : string)
    (prefix : arg (option string)) (st : state O) :
  fst (format_message message prefix st) = Returned message <->
  prefix = Omitted \/ prefix = Supplied None \/
  prefix = Supplied (Some EmptyString).
Proof.
  split.
  - destruct prefix as [ | [[ | a p] | ]]; auto.
    cbn. intros Heq. injection Heq as Heq.
    exfalso. exact (prefixed_neq (String a p) message Heq).
  - intros [-> | [-> | ->]]; reflexivity.
Qed.

(** X2. Under one and the same prefix, different messages give different
    results: equal results come from equal messages. *)
Theorem format_message_injective_in_message {O : Type} (message1 message2 : string)
    (prefix : arg (option string)) (st1 st2 : state O) :
  fst (format_message message1 prefix st1) =
    fst (format_message message2 prefix st2) ->
  message1 = message2.
Proof.
  unfold format_message.
  destruct (truth (bind_default None prefix)); cbn; intros Heq;
    injection Heq as Heq; [ | exact Heq].
  apply (inj (String.app _)) in Heq. apply (inj (String.app _)) in Heq.
  exact Heq.
Qed.

Lemma format_message_injective_in_message_witness :
  fst (format_message "hi" (Supplied (Some "LOG")) (State tt "a")) =
    fst (format_message "hi" (Supplied (Some "LOG")) (State tt "b")) /\
  "hi" = "hi".
Proof.
  split; [reflexivity | ].
  apply (format_message_injective_in_message "hi" "hi"
           (Supplied (Some "LOG")) (State tt "a") (State tt "b")).
  reflexivity.
Defined.

(** X3. Prefixing twice is prefixing once with the formatted prefix: with [q]
    not empty, formatting [message] under [q] and the result under [p] gives
    what formatting [message] under the formatting of [q] under [p] gives. *)
Theorem format_message_nested {O : Type} (message p q : string)
    (st : state O) :
  q <> EmptyString ->
  (r <- format_message message (Supplied (Some q)) ;;
   format_message r (Supplied (Some p))) st =
  (pq <- format_message q (Supplied (Some p)) ;;
   format_message message (Supplied (Some pq))) st.
Proof.
  intros Hq. destruct q as [ | b q]; [congruence | ].
  destruct p as [ | a p]; [reflexivity | ].
  cbn - [String.app]. unfold format, format_str.
  change (String a p +:+ ": " +:+ String b q)
    with (String a (p +:+ ": " +:+ String b q)).
  cbn - [String.app]. unfold format, format_str.
  change (String a (p +:+ ": " +:+ String b q))
    with (String a p +:+ ": " +:+ String b q).
  rewrite !string_app_assoc. reflexivity.
Qed.

Lemma format_message_nested_witness :
  "db" <> EmptyString /\
  (r <- format_message "down" (Supplied (Some "db")) ;;
   format_message r (Supplied (Some "ERR"))) (State tt EmptyString) =
  (pq <- format_message "db" (Supplied (Some "ERR")) ;;
   format_message "down" (Supplied (Some pq))) (State tt EmptyString).
Proof.
  split; [discriminate | ].
  apply (format_message_nested "down" "ERR" "db" (State tt EmptyString)).
  discriminate.
Defined.

(** ** [Application], continued *)

(** Where any sequence of calls ends: it returns; the name is the last one
    set, the version is untouched, the flag follows the last [start] or
    [stop], and the output has grown by the transcript of the calls. *)
Lemma perform_all_final (cs : list Application.call) :
  forall st : state Application.t,
    Application.perform_all cs st =
    (Returned tt,
     State
       {| Application.name :=
            Application.last_name_set (Application.name (self st)) cs;
          Application.version := Application.version (self st);
          Application._running :=
            Application.last_lifecycle_call_is_start
              (Application._running (self st)) cs |}
       (stdout st +:+
        Application.transcript
          (Application.name (self st)) (Application.version (self st)) cs)).
Proof.
  induction cs as [ | c cs IH]; intros [[n v r] out].
  - cbn. rewrite string_app_nil_r. reflexivity.
  - cbn [Application.perform_all].
    destruct c as [ | s | | ]; cbn [Application.perform].
    + rewrite (bind_run _ _ _ _ tt (eq_refl : (Application.get_name ;; ret tt)
                 (State (Application.Object n v r) out) = (Returned tt, _))).
      rewrite IH. reflexivity.
    + rewrite (bind_run _ _ _ _ _ (set_name_run _ s)), IH. reflexivity.
    + rewrite (bind_run _ _ _ _ _ (start_run _)), IH.
      cbn [self stdout Application.with_running Application.name
           Application.version Application._running
           Application.last_name_set Application.transcript
           Application.last_lifecycle_call_is_start].
      rewrite !string_app_assoc. reflexivity.
    + rewrite (bind_run _ _ _ _ _ (stop_run _)), IH.
      cbn [self stdout Application.with_running Application.name
           Application.version Application._running
           Application.last_name_set Application.transcript
           Application.last_lifecycle_call_is_start].
      rewrite !string_app_assoc. reflexivity.
Qed.

(** X4. No sequence of method calls changes [version]: it stays what it was,
    and every call returns. *)
Theorem version_never_changes (cs : list Application.call)
    (st : state Application.t) :
  fst (Application.perform_all cs st) = Returned tt /\
  Application.version (self (snd (Application.perform_all cs st))) =
    Application.version (self st).
Proof. rewrite perform_all_final. split; reflexivity. Qed.

(** X5. After any sequence of method calls, [name] is the argument of the
    last [set_name] among them, and the earlier name when there is none;
    [start], [stop] and [get_name] never rename. *)
Theorem name_is_last_name_set (cs : list Application.call)
    (st : state Application.t) :
  Application.name (self (snd (Application.perform_all cs st))) =
    Application.last_name_set (Application.name (self st)) cs.
Proof. rewrite perform_all_final. reflexivity. Qed.

(** X6. Standard output only grows, and by exactly one line per [start] and
    per [stop], in call order, each naming the instance as it was named at
    that call; [get_name] and [set_name] print nothing. *)
Theorem session_output (cs : list Application.call)
    (st : state Application.t) :
  stdout (snd (Application.perform_all cs st)) =
    stdout st +:+
    Application.transcript
      (Application.name (self st)) (Application.version (self st)) cs.
Proof. rewrite perform_all_final. reflexivity. Qed.

(** X7. Of two [set_name] calls in a row only the second counts. *)
Theorem set_name_last_write_wins (a b : string) (st : state Application.t) :
  (Application.set_name a ;; Application.set_name b) st =
    Application.set_name b st.
Proof. reflexivity. Qed.

(** X8. Writing back the name just read changes nothing: [set_name] of
    [get_name()] leaves the instance and the output as they were. *)
Theorem set_name_of_get_name (st : state Application.t) :
  (n <- Application.get_name ;; Application.set_name n) st =
    (Returned tt, st).
Proof. destruct st as [[n v r] out]. reflexivity. Qed.

(** ** [ApiService], continued *)

(** X9. No sequence of awaited [fetch_data] and [post_data] calls raises,
    prints, or changes the service: [api_key], [timeout] and [retries] stay as
    constructed. *)
Theorem requests_change_nothing (rs : list ApiService.request)
    (st : state ApiService.t) :
  ApiService.perform_all rs st = (Returned tt, st).
Proof.
  induction rs as [ | r rs IH]; [reflexivity | ].
  cbn [ApiService.perform_all].
  rewrite (bind_run _ _ st st tt); [exact IH | ].
  destruct r; reflexivity.
Qed.

(** X10. The literals in [ApiService.__init__] agree with the module-level
    constants: a service built without a timeout has [DEFAULT_TIMEOUT], and
    every service has [MAX_RETRIES] retries. *)
Theorem api_service_defaults_match_constants (api_key : string)
    (timeout : arg Z) :
  ApiService.timeout (ApiService.__init__ api_key Omitted) = DEFAULT_TIMEOUT /\
  ApiService.retries (ApiService.__init__ api_key timeout) = MAX_RETRIES.
Proof. split; reflexivity. Qed.

(** ** Module-level constants, continued *)

(** X11. The module's assignments bind their three names and no other: any
    other name is bound after them, or unbound, as it was before. *)
Theorem module_constants_frame (globals : gmap string value) (k : string) :
  k <> "DEFAULT_TIMEOUT" -> k <> "MAX_RETRIES" -> k <> "API_VERSION" ->
  module_constants globals !! k = globals !! k.
Proof.
  intros H1 H2 H3. unfold module_constants.
  rewrite !lookup_insert_ne by congruence. reflexivity.
Qed.

Lemma module_constants_frame_witness :
  ("DEBUG" <> "DEFAULT_TIMEOUT" /\
   "DEBUG" <> "MAX_RETRIES" /\
   "DEBUG" <> "API_VERSION") /\
  module_constants (<["DEBUG" := VBool true]> ∅) !! "DEBUG" =
    (<["DEBUG" := VBool true]> ∅ : gmap string value) !! "DEBUG".
Proof.
  split; [repeat split; discriminate | ].
  apply (module_constants_frame (<["DEBUG" := VBool true]> ∅) "DEBUG");
    discriminate.
Defined.
